(** * Direct Connect virtual interfaces: [aws/dx_vif.go]

    A shallow embedding of the read, delete, refresh and wait operations of
    [aws/dx_vif.go] and of the two route-filter-prefix conversions, together
    with the state poller the file calls into.

    Conventions of the embedding:
    - a Go [*string] is an [option string] ([None] is the nil pointer);
    - a Go [error] result is an [option error] ([None] is nil);
    - the Direct Connect API is reached through an environment [Env] whose
      calls take and give back the state of the remote service;
    - a Go panic is the [None] of an [option] result. *)

From Stdlib Require Import ZArith.
From stdpp Require Import gmap strings list fin_maps.

Local Open Scope Z_scope.

(** ** Values of the vendor SDK *)

(** [aws.StringValue]: the pointed-to string, or the empty string for nil. *)
Definition StringValue (p : option string) : string :=
  match p with
  | Some s => s
  | None => ""
  end.

(** [directconnect.RouteFilterPrefix]. *)
Record RouteFilterPrefix := mkRouteFilterPrefix {
  Cidr : option string
}.

(** [directconnect.VirtualInterface], with the fields this file reads.
    A slice of pointers is a list of [option]s, [None] being a nil element. *)
Record VirtualInterface := mkVirtualInterface {
  VirtualInterfaceState : option string;
  ConnectionId : option string;
  VirtualInterfaceName : option string;
  Vlan : option Z;
  Asn : option Z;
  AuthKey : option string;
  AddressFamily : option string;
  CustomerAddress : option string;
  AmazonAddress : option string;
  RouteFilterPrefixes : list (option RouteFilterPrefix)
}.

(** [directconnect.DescribeVirtualInterfacesOutput].  The SDK fills the slice
    with non-nil pointers, so its elements are the records themselves. *)
Record DescribeVirtualInterfacesOutput := mkDescribeOutput {
  VirtualInterfaces : list VirtualInterface
}.

(** Modelled from the spec: the state labels of the SDK's [directconnect]
    package, whose declarations are not part of the source tree.  The spec
    names them by their values. *)
Definition VirtualInterfaceStateAvailable : string := "available".
Definition VirtualInterfaceStateConfirming : string := "confirming".
Definition VirtualInterfaceStateDeleted : string := "deleted".
Definition VirtualInterfaceStateDeleting : string := "deleting".
Definition VirtualInterfaceStateDown : string := "down".
Definition VirtualInterfaceStatePending : string := "pending".
Definition VirtualInterfaceStateRejected : string := "rejected".
Definition VirtualInterfaceStateVerifying : string := "verifying".
Definition ConnectionStateDeleted : string := "deleted".

(** ** Errors *)

(** The values of Go's [error] interface that occur in this file: an error of
    the vendor SDK ([awserr.Error], with its code and message), an error made
    by [fmt.Errorf], and the two errors of the poller. *)
Inductive error :=
| AwsError (code message : string)
| ErrorString (text : string)
| UnexpectedStateError (state : string)
| TimeoutError.

#[global] Instance error_eq_dec : EqDecision error.
Proof. solve_decision. Defined.

(** [time.Duration], in nanoseconds. *)
Definition Duration := Z.
Definition Second : Duration := 1000000000.

(** [schema.ResourceData]: the identifier and the configured timeouts. *)
Record ResourceData := mkResourceData {
  Id : string;
  TimeoutCreate : Duration;
  TimeoutDelete : Duration
}.

Definition SetId (v : string) (d : ResourceData) : ResourceData :=
  {| Id := v; TimeoutCreate := TimeoutCreate d; TimeoutDelete := TimeoutDelete d |}.

(** ** The environment

    What the file uses and does not define: the remote service behind
    [conn], the helper [isAWSErr] of the provider, the text of the errors of
    the libraries, and the interval the poller chooses between attempts. *)
Record Env := mkEnv {
  World : Type;
  DescribeVirtualInterfaces :
    World -> string -> (DescribeVirtualInterfacesOutput + error) * World;
  DeleteVirtualInterface : World -> string -> option error * World;
  Sleep : Duration -> World -> World;
  isAWSErr : error -> string -> string -> bool;
  libError : error -> string;
  backoff : nat -> Duration
}.

(** One observation of the resource: [(interface{}, string, error)]. *)
Record RefreshResult := mkRefreshResult {
  Result : option VirtualInterface;
  State : string;
  Err : option error
}.

(** What the poller does and sees, in order. *)
Inductive event :=
| EvSleep (d : Duration)
| EvRefresh (r : RefreshResult).

Section DxVif.

Variable E : Env.

(** The [Error()] method. *)
Definition Error (e : error) : string :=
  match e with
  | ErrorString text => text
  | _ => libError E e
  end.

Definition isNoSuchDxVirtualInterfaceErr (err : error) : bool :=
  isAWSErr E err "DirectConnectClientException" "does not exist".

(** [resource.StateRefreshFunc]. *)
Definition StateRefreshFunc := World E -> RefreshResult * World E.

Definition dxVirtualInterfaceStateRefresh (vifId : string) : StateRefreshFunc :=
  fun conn =>
    let '(resp, conn) := DescribeVirtualInterfaces E conn vifId in
    match resp with
    | inr err =>
        if isNoSuchDxVirtualInterfaceErr err
        then (mkRefreshResult None VirtualInterfaceStateDeleted None, conn)
        else (mkRefreshResult None "" (Some err), conn)
    | inl resp =>
        match VirtualInterfaces resp with
        | [] => (mkRefreshResult None ConnectionStateDeleted None, conn)
        | vif :: _ =>
            (mkRefreshResult (Some vif) (StringValue (VirtualInterfaceState vif)) None,
             conn)
        end
    end.

(** The answer of the describe call for a resource that is gone: the
    "does not exist" error, or an empty list. *)
Definition absent (reply : DescribeVirtualInterfacesOutput + error) : Prop :=
  match reply with
  | inl resp => VirtualInterfaces resp = []
  | inr err => isNoSuchDxVirtualInterfaceErr err = true
  end.

(** [resource.StateChangeConf], with the fields this file sets. *)
Record StateChangeConf := mkStateChangeConf {
  Pending : list string;
  Target : list string;
  Refresh : StateRefreshFunc;
  Timeout : Duration;
  Delay : Duration;
  MinTimeout : Duration
}.

(** ** The state poller

    [WaitForState] belongs to the vendored [helper/resource] package, which is
    not part of the source tree; the poller below follows the algorithm of the
    spec (section 4.1). *)

Inductive verdict :=
| Done (object : option VirtualInterface)
| Failed (err : error)
| Continue.

(** Modelled from the spec: step 2 of the algorithm of the poller, whose code
    (the vendored [helper/resource]) is missing.  A failed refresh propagates
    its error; a state in [target] returns the object; a state in neither set
    fails with [UnexpectedStateError] naming it; a state in [pending] goes on. *)
Definition classify (conf : StateChangeConf) (r : RefreshResult) : verdict :=
  match Err r with
  | Some err => Failed err
  | None =>
      if bool_decide (State r ∈ Target conf) then Done (Result r)
      else if bool_decide (State r ∈ Pending conf) then Continue
      else Failed (UnexpectedStateError (State r))
  end.

(** Modelled from the spec: step 3, the interval before the next attempt, for
    the missing poller: the adaptive interval, at least [minInterval], bounded
    by what is left of [timeout]. *)
Definition interval (conf : StateChangeConf) (attempt : nat) (elapsed : Duration)
  : Duration :=
  Z.min (Z.max (backoff E attempt) (MinTimeout conf)) (Timeout conf - elapsed).

(** Modelled from the spec: steps 2 to 4 of the missing poller.  [fuel] bounds
    the number of refresh attempts, [attempt] counts them and [elapsed] is the
    time slept so far.  The result is the object or the error, the events in
    order, and the state of the service; [None] when [fuel] runs out. *)
Fixpoint poll (fuel : nat) (conf : StateChangeConf) (attempt : nat)
    (elapsed : Duration) (conn : World E)
  : option ((option VirtualInterface + error) * list event * World E) :=
  match fuel with
  | O => None
  | S fuel =>
      let '(r, conn) := Refresh conf conn in
      match classify conf r with
      | Done object => Some (inl object, [EvRefresh r], conn)
      | Failed err => Some (inr err, [EvRefresh r], conn)
      | Continue =>
          if Timeout conf <=? elapsed
          then Some (inr TimeoutError, [EvRefresh r], conn)
          else
            let wait := interval conf attempt elapsed in
            match poll fuel conf (S attempt) (elapsed + wait) (Sleep E wait conn) with
            | Some (res, tr, conn) => Some (res, EvRefresh r :: EvSleep wait :: tr, conn)
            | None => None
            end
      end
  end.

(** Modelled from the spec: [Poll(spec, refreshFn)], the missing
    [WaitForState]: step 1 waits [initialDelay], then the attempts follow. *)
Definition WaitForState (fuel : nat) (conf : StateChangeConf) (conn : World E)
  : option ((option VirtualInterface + error) * list event * World E) :=
  match poll fuel conf 0 (Delay conf) (Sleep E (Delay conf) conn) with
  | Some (res, tr, conn) => Some (res, EvSleep (Delay conf) :: tr, conn)
  | None => None
  end.

(** ** Read *)

Definition terminalStates : gmap string bool :=
  <[VirtualInterfaceStateDeleted := true]>
    (<[VirtualInterfaceStateDeleting := true]>
       (<[VirtualInterfaceStateRejected := true]> ∅)).

(** The result is the virtual interface, the error, the resource data after
    the call and the state of the service; [None] is the panic of the type
    assertion of [resp] to a virtual interface pointer when [resp] is the nil
    interface. *)
Definition dxVirtualInterfaceRead (d : ResourceData) (conn : World E)
  : option (option VirtualInterface * option error * ResourceData * World E) :=
  let '(r, conn) := dxVirtualInterfaceStateRefresh (Id d) conn in
  match Err r with
  | Some err =>
      Some (None,
            Some (ErrorString
                    ("Error reading Direct Connect virtual interface: " +:+ Error err)),
            d, conn)
  | None =>
      match terminalStates !! State r with
      | Some _ => Some (None, None, SetId "" d, conn)
      | None =>
          match Result r with
          | Some vif => Some (Some vif, None, d, conn)
          | None => None
          end
      end
  end.

(** ** Delete *)

(** The [deleteStateConf] of [dxVirtualInterfaceDelete]. *)
Definition deleteStateConf (d : ResourceData) : StateChangeConf :=
  {| Pending := [ VirtualInterfaceStateAvailable;
                  VirtualInterfaceStateConfirming;
                  VirtualInterfaceStateDeleting;
                  VirtualInterfaceStateDown;
                  VirtualInterfaceStatePending;
                  VirtualInterfaceStateRejected;
                  VirtualInterfaceStateVerifying ];
     Target := [ VirtualInterfaceStateDeleted ];
     Refresh := dxVirtualInterfaceStateRefresh (Id d);
     Timeout := TimeoutDelete d;
     Delay := 10 * Second;
     MinTimeout := 5 * Second |}.

Definition dxVirtualInterfaceDelete (fuel : nat) (d : ResourceData) (conn : World E)
  : option (option error * World E) :=
  let '(err, conn) := DeleteVirtualInterface E conn (Id d) in
  match err with
  | Some err =>
      if isNoSuchDxVirtualInterfaceErr err then Some (None, conn)
      else
        Some (Some (ErrorString
                      ("Error deleting Direct Connect virtual interface: "
                         +:+ Error err)),
              conn)
  | None =>
      match WaitForState fuel (deleteStateConf d) conn with
      | None => None
      | Some (inr err, _, conn) =>
          Some (Some (ErrorString
                        ("Error waiting for Direct Connect virtual interface ("
                           +:+ Id d +:+ ") to be deleted: " +:+ Error err)),
                conn)
      | Some (inl _, _, conn) => Some (None, conn)
      end
  end.

(** ** Wait until available *)

(** The [stateConf] of [dxVirtualInterfaceWaitUntilAvailable]. *)
Definition stateConf (d : ResourceData) (pending target : list string)
  : StateChangeConf :=
  {| Pending := pending;
     Target := target;
     Refresh := dxVirtualInterfaceStateRefresh (Id d);
     Timeout := TimeoutCreate d;
     Delay := 10 * Second;
     MinTimeout := 5 * Second |}.


End DxVif.

Arguments Pending {E} _.
Arguments Target {E} _.
Arguments Refresh {E} _.
Arguments Timeout {E} _.
Arguments Delay {E} _.
Arguments MinTimeout {E} _.
Arguments classify {E} _ _.

(** ** Route filter prefixes *)

(** A Go [interface{}] value of the configuration. *)
Inductive value :=
| VString (s : string)
| VInt (n : Z)
| VBool (b : bool)
| VNil.

(** The loop of [expandDxRouteFilterPrefixes]: [prefixes[i] = prefix] for the
    elements of [cfg] from index [i] on.  [None] is the panic of the type
    assertion [p.(string)] on a value that is not a string. *)
Fixpoint expand_loop (i : nat) (cfg : list value)
    (prefixes : list (option RouteFilterPrefix))
  : option (list (option RouteFilterPrefix)) :=
  match cfg with
  | [] => Some prefixes
  | p :: cfg =>
      match p with
      | VString s =>
          let prefix := {| Cidr := Some s |} in
          expand_loop (S i) cfg (<[i := Some prefix]> prefixes)
      | _ => None
      end
  end.

Definition expandDxRouteFilterPrefixes (cfg : list value)
  : option (list (option RouteFilterPrefix)) :=
  let prefixes := replicate (length cfg) None in
  expand_loop 0 cfg prefixes.

(** The loop of [flattenDxRouteFilterPrefixes]: [out = append(out, ...)].
    [None] is the panic of [prefix.Cidr] on a nil pointer. *)
Fixpoint flatten_loop (prefixes : list (option RouteFilterPrefix)) (out : list string)
  : option (list string) :=
  match prefixes with
  | [] => Some out
  | Some prefix :: prefixes => flatten_loop prefixes (out ++ [StringValue (Cidr prefix)])
  | None :: _ => None
  end.

(** [schema.NewSet(schema.HashString, out)] is the finite set of the strings
    of [out]. *)
Definition flattenDxRouteFilterPrefixes (prefixes : list (option RouteFilterPrefix))
  : option (gset string) :=
  match flatten_loop prefixes [] with
  | Some out => Some (list_to_set out)
  | None => None
  end.

(** ** A scripted service

    A concrete environment to run the operations on: the service answers the
    describe calls from a script, one answer per call, and reports an empty
    list once the script is over; the delete call answers with [deleteReply]. *)
Module Scripted.

Record world := mkWorld {
  describeReplies : list (DescribeVirtualInterfacesOutput + error);
  deleteReply : option error;
  clock : Duration
}.

Definition describe (w : world) (vifId : string)
  : (DescribeVirtualInterfacesOutput + error) * world :=
  match describeReplies w with
  | [] => (inl (mkDescribeOutput []), w)
  | reply :: rest => (reply, mkWorld rest (deleteReply w) (clock w))
  end.

Definition delete (w : world) (vifId : string) : option error * world :=
  (deleteReply w, w).

Definition sleep (d : Duration) (w : world) : world :=
  mkWorld (describeReplies w) (deleteReply w) (clock w + d).

(** [strings.Contains]. *)
Fixpoint contains (s substr : string) : bool :=
  if String.prefix substr s then true
  else match s with
       | EmptyString => false
       | String _ rest => contains rest substr
       end.

(** The provider's [isAWSErr]: an SDK error with that code whose message
    contains [message]. *)
Definition isAWSErr (err : error) (code message : string) : bool :=
  match err with
  | AwsError c m => bool_decide (c = code) && contains m message
  | _ => false
  end.

Definition libError (err : error) : string :=
  match err with
  | AwsError c m => c +:+ ": " +:+ m
  | ErrorString text => text
  | UnexpectedStateError state => "unexpected state '" +:+ state +:+ "'"
  | TimeoutError => "timeout while waiting for state"
  end.

(** Doubling from 100ms, at most 10s. *)
Definition backoff (attempt : nat) : Duration :=
  Z.min (100000000 * 2 ^ Z.of_nat attempt) (10 * Second).

Definition env : Env :=
  mkEnv world describe delete sleep isAWSErr libError backoff.

Definition vif (state : string) : VirtualInterface :=
  {| VirtualInterfaceState := Some state;
     ConnectionId := Some "dxcon-fg5678gh";
     VirtualInterfaceName := Some "vif-foo";
     Vlan := Some 4094;
     Asn := Some 65352;
     AuthKey := None;
     AddressFamily := Some "ipv4";
     CustomerAddress := None;
     AmazonAddress := None;
     RouteFilterPrefixes := [] |}.

Definition notFound : error :=
  AwsError "DirectConnectClientException"
           "Virtual Interface dxvif-fgh0hsqa does not exist".

Definition throttled : error :=
  AwsError "ThrottlingException" "Rate exceeded".

Definition script (replies : list (DescribeVirtualInterfacesOutput + error)) : world :=
  mkWorld replies None 0.

Definition found (state : string) : DescribeVirtualInterfacesOutput + error :=
  inl (mkDescribeOutput [vif state]).

Definition rd : ResourceData :=
  {| Id := "dxvif-fgh0hsqa"; TimeoutCreate := 600 * Second; TimeoutDelete := 600 * Second |}.

End Scripted.

(** The pointer [expandDxRouteFilterPrefixes] stores for the string [s]. *)
Definition prefix_of (s : string) : option RouteFilterPrefix :=
  Some {| Cidr := Some s |}.

(** The durations slept in a run of the poller. *)
Fixpoint sleeps (tr : list event) : list Duration :=
  match tr with
  | [] => []
  | EvSleep d :: tr => d :: sleeps tr
  | EvRefresh _ :: tr => sleeps tr
  end.

#[global] Instance RouteFilterPrefix_eq_dec : EqDecision RouteFilterPrefix.
Proof. solve_decision. Defined.

(** ** Attributes, schema and update *)

(** [AWSClient], with the fields this file reads besides the connection. *)
Record AWSClient := mkAWSClient {
  partition : string;
  region : string;
  accountid : string
}.

(** [arn.ARN]. *)
Record ARN := mkARN {
  Partition : string;
  Service : string;
  Region : string;
  AccountID : string;
  Resource : string
}.

(** A value handed to [d.Set]: a string, a [*string], a [*int64] or a
    [*schema.Set] of strings. *)
Inductive setValue :=
| SetString (s : string)
| SetStringPtr (p : option string)
| SetInt64Ptr (p : option Z)
| SetSchemaSet (s : gset string).

(** The attributes of the resource data: for every key, the value last handed
    to [d.Set].  The error [d.Set] returns is dropped by every call of this
    file. *)
Abbreviation Attributes := (gmap string setValue).

Definition d_Set (key : string) (v : setValue) (attrs : Attributes) : Attributes :=
  <[key := v]> attrs.

(** [schema.ValueType], the two this file uses. *)
Inductive ValueType :=
| TypeString
| TypeInt.

(** The validators this file installs, by their arguments. *)
Inductive SchemaValidateFunc :=
| IntBetween (min max : Z)
| StringInSlice (valid : list string) (ignoreCase : bool).

(** [schema.Schema], with the fields this file sets. *)
Record Schema := mkSchema {
  SchemaType : ValueType;
  Required : bool;
  Optional : bool;
  Computed : bool;
  ForceNew : bool;
  ValidateFunc : option SchemaValidateFunc
}.

Section Attributes.

Variable E : Env.

(** The [String] method of [arn.ARN], the two address-family labels of the
    SDK and the provider's [setTagsDX] are used by this file and defined
    elsewhere. *)
Variable ARN_String : ARN → string.
Variables AddressFamilyIpv4 AddressFamilyIpv6 : string.
Variable setTagsDX :
  World E → ResourceData → Attributes → string → option error * World E.

Definition dxVirtualInterfaceSchema : gmap string Schema :=
  <["arn" := {| SchemaType := TypeString; Required := false; Optional := false;
                Computed := true; ForceNew := false; ValidateFunc := None |}]>
  (<["connection_id" :=
       {| SchemaType := TypeString; Required := true; Optional := false;
          Computed := false; ForceNew := true; ValidateFunc := None |}]>
  (<["name" := {| SchemaType := TypeString; Required := true; Optional := false;
                  Computed := false; ForceNew := true; ValidateFunc := None |}]>
  (<["vlan" := {| SchemaType := TypeInt; Required := true; Optional := false;
                  Computed := false; ForceNew := true;
                  ValidateFunc := Some (IntBetween 1 4094) |}]>
  (<["bgp_asn" := {| SchemaType := TypeInt; Required := true; Optional := false;
                     Computed := false; ForceNew := true; ValidateFunc := None |}]>
  (<["bgp_auth_key" :=
       {| SchemaType := TypeString; Required := false; Optional := true;
          Computed := true; ForceNew := true; ValidateFunc := None |}]>
  (<["address_family" :=
       {| SchemaType := TypeString; Required := true; Optional := false;
          Computed := false; ForceNew := true;
          ValidateFunc :=
            Some (StringInSlice [AddressFamilyIpv4; AddressFamilyIpv6] false) |}]>
  (<["customer_address" :=
       {| SchemaType := TypeString; Required := false; Optional := true;
          Computed := true; ForceNew := true; ValidateFunc := None |}]>
  (<["amazon_address" :=
       {| SchemaType := TypeString; Required := false; Optional := true;
          Computed := true; ForceNew := true; ValidateFunc := None |}]>
   ∅)))))))).

Definition dxVirtualInterfaceUpdate (d : ResourceData) (attrs : Attributes)
    (meta : AWSClient) (conn : World E) : option error * World E :=
  let arn := ARN_String {| Partition := partition meta;
                           Region := region meta;
                           Service := "directconnect";
                           AccountID := accountid meta;
                           Resource := "dxvif/" +:+ Id d |} in
  match setTagsDX conn d attrs arn with
  | (Some err, conn) => (Some err, conn)
  | (None, conn) => (None, conn)
  end.

Definition dxVirtualInterfaceArnAttribute (d : ResourceData) (meta : AWSClient)
    (attrs : Attributes) : option error * Attributes :=
  let arn := ARN_String {| Partition := partition meta;
                           Region := region meta;
                           Service := "directconnect";
                           AccountID := accountid meta;
                           Resource := "dxvif/" +:+ Id d |} in
  (None, d_Set "arn" (SetString arn) attrs).

(** [None] is the panic of [vif.ConnectionId] on a nil [vif]. *)
Definition dxVirtualInterfaceAttributes (d : ResourceData) (meta : AWSClient)
    (vif : option VirtualInterface) (attrs : Attributes)
  : option (option error * Attributes) :=
  match dxVirtualInterfaceArnAttribute d meta attrs with
  | (Some err, attrs) => Some (Some err, attrs)
  | (None, attrs) =>
      match vif with
      | None => None
      | Some vif =>
          let attrs := d_Set "connection_id" (SetStringPtr (ConnectionId vif)) attrs in
          let attrs := d_Set "name" (SetStringPtr (VirtualInterfaceName vif)) attrs in
          let attrs := d_Set "vlan" (SetInt64Ptr (Vlan vif)) attrs in
          let attrs := d_Set "bgp_asn" (SetInt64Ptr (Asn vif)) attrs in
          let attrs := d_Set "bgp_auth_key" (SetStringPtr (AuthKey vif)) attrs in
          let attrs := d_Set "address_family" (SetStringPtr (AddressFamily vif)) attrs in
          let attrs :=
            d_Set "customer_address" (SetStringPtr (CustomerAddress vif)) attrs in
          let attrs := d_Set "amazon_address" (SetStringPtr (AmazonAddress vif)) attrs in
          Some (None, attrs)
      end
  end.

Definition dxPrivateVirtualInterfaceAttributes (d : ResourceData) (meta : AWSClient)
    (vif : option VirtualInterface) (attrs : Attributes)
  : option (option error * Attributes) :=
  dxVirtualInterfaceAttributes d meta vif attrs.

(** [None] is a panic: of [dxVirtualInterfaceAttributes], or of
    [flattenDxRouteFilterPrefixes] on a nil prefix. *)
Definition dxPublicVirtualInterfaceAttributes (d : ResourceData) (meta : AWSClient)
    (vif : option VirtualInterface) (attrs : Attributes)
  : option (option error * Attributes) :=
  match dxVirtualInterfaceAttributes d meta vif attrs with
  | None => None
  | Some (Some err, attrs) => Some (Some err, attrs)
  | Some (None, attrs) =>
      match vif with
      | None => None
      | Some vif =>
          match flattenDxRouteFilterPrefixes (RouteFilterPrefixes vif) with
          | None => None
          | Some set =>
              Some (None, d_Set "route_filter_prefixes" (SetSchemaSet set) attrs)
          end
      end
  end.

End Attributes.

(** ** A sample client

    Concrete values for the parts of the provider the operations above take
    as given, to run them on. *)
Module Sample.

Definition client : AWSClient :=
  {| partition := "aws"; region := "us-east-1"; accountid := "123456789012" |}.

Definition arnString (a : ARN) : string :=
  "arn:" +:+ Partition a +:+ ":" +:+ Service a +:+ ":" +:+ Region a +:+ ":"
    +:+ AccountID a +:+ ":" +:+ Resource a.

Definition publicVif : VirtualInterface :=
  {| VirtualInterfaceState := Some "available";
     ConnectionId := Some "dxcon-fg5678gh";
     VirtualInterfaceName := Some "vif-foo";
     Vlan := Some 4094;
     Asn := Some 65352;
     AuthKey := None;
     AddressFamily := Some "ipv4";
     CustomerAddress := Some "175.45.176.1/30";
     AmazonAddress := Some "175.45.176.2/30";
     RouteFilterPrefixes :=
       [Some {| Cidr := Some "210.52.109.0/24" |};
        Some {| Cidr := Some "175.45.176.0/22" |};
        Some {| Cidr := Some "210.52.109.0/24" |}] |}.

End Sample.

(** * Properties *)

Section Refresh.

Variable E : Env.

Lemma refresh_describe_error (vifId : string) (conn conn' : World E) (err : error) :
  DescribeVirtualInterfaces E conn vifId = (inr err, conn') →
  dxVirtualInterfaceStateRefresh E vifId conn =
    (if isNoSuchDxVirtualInterfaceErr E err
     then mkRefreshResult None VirtualInterfaceStateDeleted None
     else mkRefreshResult None "" (Some err), conn').
Proof.
  intros Hd. unfold dxVirtualInterfaceStateRefresh. rewrite Hd.
  by destruct (isNoSuchDxVirtualInterfaceErr E err).
Qed.

Lemma refresh_absent (vifId : string) (conn conn' : World E)
    (reply : DescribeVirtualInterfacesOutput + error) :
  DescribeVirtualInterfaces E conn vifId = (reply, conn') →
  absent E reply →
  dxVirtualInterfaceStateRefresh E vifId conn =
    (mkRefreshResult None VirtualInterfaceStateDeleted None, conn').
Proof.
  intros Hd Habs. unfold dxVirtualInterfaceStateRefresh. rewrite Hd.
  destruct reply as [resp|err]; simpl in Habs; by rewrite Habs.
Qed.


(** X1: the refresh fails exactly when the describe call fails with an error
    other than "does not exist", and it fails with that error. *)
Lemma refresh_error_iff (vifId : string) (conn conn' : World E) (r : RefreshResult)
    (err : error) :
  dxVirtualInterfaceStateRefresh E vifId conn = (r, conn') →
  Err r = Some err ↔
  DescribeVirtualInterfaces E conn vifId = (inr err, conn')
  ∧ isNoSuchDxVirtualInterfaceErr E err = false.
Proof.
  unfold dxVirtualInterfaceStateRefresh.
  destruct (DescribeVirtualInterfaces E conn vifId) as [[resp|err0] c].
  - destruct (VirtualInterfaces resp); intros [= <- <-]; simpl;
      (split; [discriminate | intros [[=] _]]).
  - destruct (isNoSuchDxVirtualInterfaceErr E err0) eqn:Hno; intros [= <- <-]; simpl.
    + split; [discriminate | intros [[= ->] Hno']; congruence].
    + split; [intros [= ->]; done | intros [[= ->] _]; done].
Qed.

(** C1: when the describe call succeeds with an empty list of virtual
    interfaces, the refresh returns no object, the state "deleted" and no
    error. *)
Theorem refresh_empty_list_deleted (vifId : string) (conn conn' : World E)
    (resp : DescribeVirtualInterfacesOutput) :
  DescribeVirtualInterfaces E conn vifId = (inl resp, conn') →
  VirtualInterfaces resp = [] →
  dxVirtualInterfaceStateRefresh E vifId conn =
    ({| Result := None; State := "deleted"; Err := None |}, conn').
Proof.
  intros Hd Hnil. unfold dxVirtualInterfaceStateRefresh.
  rewrite Hd, Hnil. reflexivity.
Qed.

(** C2: when the describe call fails with the "does not exist" error, the
    refresh returns no object, the state "deleted" and no error: the error is
    not propagated. *)
Theorem refresh_not_found_deleted (vifId : string) (conn conn' : World E)
    (err : error) :
  DescribeVirtualInterfaces E conn vifId = (inr err, conn') →
  isNoSuchDxVirtualInterfaceErr E err = true →
  dxVirtualInterfaceStateRefresh E vifId conn =
    ({| Result := None; State := "deleted"; Err := None |}, conn').
Proof.
  intros Hd Hno. rewrite (refresh_describe_error _ _ _ _ Hd), Hno. reflexivity.
Qed.

End Refresh.

Lemma refresh_empty_list_deleted_witness :
  DescribeVirtualInterfaces Scripted.env (Scripted.script []) "dxvif-fgh0hsqa"
    = (inl (mkDescribeOutput []), Scripted.script []) ∧
  dxVirtualInterfaceStateRefresh Scripted.env "dxvif-fgh0hsqa" (Scripted.script [])
    = ({| Result := None; State := "deleted"; Err := None |}, Scripted.script []).
Proof.
  split; [reflexivity |].
  apply (refresh_empty_list_deleted Scripted.env "dxvif-fgh0hsqa"
           (Scripted.script []) (Scripted.script []) (mkDescribeOutput []));
    reflexivity.
Defined.

Lemma refresh_not_found_deleted_witness :
  isNoSuchDxVirtualInterfaceErr Scripted.env Scripted.notFound = true ∧
  dxVirtualInterfaceStateRefresh Scripted.env "dxvif-fgh0hsqa"
      (Scripted.script [inr Scripted.notFound])
    = ({| Result := None; State := "deleted"; Err := None |}, Scripted.script []).
Proof.
  split; [vm_compute; reflexivity |].
  apply (refresh_not_found_deleted Scripted.env "dxvif-fgh0hsqa"
           (Scripted.script [inr Scripted.notFound]) (Scripted.script [])
           Scripted.notFound);
    vm_compute; reflexivity.
Defined.

Section Poller.

Variable E : Env.
Variable conf : StateChangeConf E.

(** An attempt whose observation is not a pending state ends the poll there. *)
Lemma poll_final (fuel attempt : nat) (elapsed : Duration) (conn conn1 : World E)
    (r : RefreshResult) :
  Refresh conf conn = (r, conn1) →
  classify conf r ≠ Continue →
  poll E (S fuel) conf attempt elapsed conn =
    Some (match classify conf r with
          | Done object => inl object
          | Failed err => inr err
          | Continue => inr TimeoutError
          end, [EvRefresh r], conn1).
Proof.
  intros Hr Hc. simpl. rewrite Hr.
  by destruct (classify conf r).
Qed.

(** In a run of the attempts, every observation that is not a pending state is
    the last event, and it decides the result. *)
Lemma poll_last_observation (fuel : nat) :
  ∀ (attempt : nat) (elapsed : Duration) (conn conn' : World E)
    (res : option VirtualInterface + error) (tr pre post : list event)
    (r : RefreshResult),
    poll E fuel conf attempt elapsed conn = Some (res, tr, conn') →
    tr = pre ++ EvRefresh r :: post →
    match classify conf r with
    | Done object => post = [] ∧ res = inl object
    | Failed err => post = [] ∧ res = inr err
    | Continue => True
    end.
Proof.
  induction fuel as [|fuel IH]; intros attempt elapsed conn conn' res tr pre post r;
    [discriminate |].
  simpl. destruct (Refresh conf conn) as [r0 conn0].
  destruct (classify conf r0) eqn:Hc0.
  - intros [= <- <- <-] Htr.
    destruct pre as [|e [|e' pre]]; simplify_eq/=. by rewrite Hc0.
  - intros [= <- <- <-] Htr.
    destruct pre as [|e [|e' pre]]; simplify_eq/=. by rewrite Hc0.
  - destruct (Timeout conf <=? elapsed).
    + intros [= <- <- <-] Htr.
      destruct pre as [|e [|e' pre]]; simplify_eq/=. by rewrite Hc0.
    + destruct (poll E fuel conf (S attempt) _ _) as [[[res1 tr1] conn1]|] eqn:Hrec;
        [|discriminate].
      intros [= <- <- <-] Htr.
      destruct pre as [|e [|e' pre]]; simplify_eq/=.
      * by rewrite Hc0.
      * eapply IH; [exact Hrec | reflexivity].
Qed.

(** With a positive minimal interval, [fuel] attempts after the first are
    enough as soon as they cover what is left of the timeout. *)
Lemma poll_terminates (fuel : nat) :
  0 < MinTimeout conf →
  ∀ (attempt : nat) (elapsed : Duration) (conn : World E),
    Timeout conf - elapsed ≤ Z.of_nat fuel * MinTimeout conf →
    is_Some (poll E (S fuel) conf attempt elapsed conn).
Proof.
  intros Hmin. induction fuel as [|fuel IH]; intros attempt elapsed conn Hleft.
  - simpl. destruct (Refresh conf conn) as [r conn1].
    destruct (classify conf r); [by eexists..|].
    destruct (Z.leb_spec (Timeout conf) elapsed); [by eexists | lia].
  - cbn [poll]. destruct (Refresh conf conn) as [r conn1].
    destruct (classify conf r); [by eexists..|].
    destruct (Z.leb_spec (Timeout conf) elapsed); [by eexists |].
    edestruct (IH (S attempt) (elapsed + interval E conf attempt elapsed)
                 (Sleep E (interval E conf attempt elapsed) conn1)) as [[[res tr] c] Hrec].
    + unfold interval. lia.
    + cbn [poll] in Hrec. rewrite Hrec. by eexists.
Qed.

Lemma WaitForState_terminates (fuel : nat) (conn : World E) :
  0 < MinTimeout conf →
  Timeout conf - Delay conf ≤ Z.of_nat fuel * MinTimeout conf →
  ∃ res tr conn', WaitForState E (S fuel) conf conn = Some (res, tr, conn').
Proof.
  intros Hmin Hleft. unfold WaitForState.
  destruct (poll_terminates fuel Hmin 0%nat (Delay conf)
              (Sleep E (Delay conf) conn) Hleft) as [[[res tr] c] Hrun].
  rewrite Hrun. by do 3 eexists.
Qed.

Lemma WaitForState_last_observation (fuel : nat) (conn conn' : World E)
    (res : option VirtualInterface + error) (tr pre post : list event)
    (r : RefreshResult) :
  WaitForState E fuel conf conn = Some (res, tr, conn') →
  tr = pre ++ EvRefresh r :: post →
  match classify conf r with
  | Done object => post = [] ∧ res = inl object
  | Failed err => post = [] ∧ res = inr err
  | Continue => True
  end.
Proof.
  unfold WaitForState.
  destruct (poll E fuel conf 0 _ _) as [[[res1 tr1] conn1]|] eqn:Hrun; [|discriminate].
  intros [= <- <- <-] Htr.
  destruct pre as [|e pre]; simplify_eq/=.
  eapply poll_last_observation; [exact Hrun | reflexivity].
Qed.

(** A first refresh in the target set: the initial delay, the refresh, and
    the object of the refresh is returned. *)
Lemma WaitForState_first_in_target (fuel : nat) (conn conn1 : World E)
    (r : RefreshResult) :
  Refresh conf (Sleep E (Delay conf) conn) = (r, conn1) →
  Err r = None →
  State r ∈ Target conf →
  WaitForState E (S fuel) conf conn =
    Some (inl (Result r), [EvSleep (Delay conf); EvRefresh r], conn1).
Proof.
  intros Hr Herr Hin. unfold WaitForState.
  rewrite (poll_final fuel 0 (Delay conf) _ conn1 r Hr);
    unfold classify; rewrite Herr, (bool_decide_eq_true_2 _ Hin); done.
Qed.

End Poller.

Section PollerClaims.

Variable E : Env.


(** C4: a run of the poller ends, and a refresh attempt of the run that fails
    with an error is its last event, the poller failing with that very error:
    no attempt and no sleep follows it. *)
Theorem WaitForState_refresh_error (fuel : nat) (conf : StateChangeConf E)
    (conn : World E) :
  0 < MinTimeout conf →
  Timeout conf - Delay conf ≤ Z.of_nat fuel * MinTimeout conf →
  ∃ res tr conn',
    WaitForState E (S fuel) conf conn = Some (res, tr, conn') ∧
    ∀ pre r post err,
      tr = pre ++ EvRefresh r :: post →
      Err r = Some err →
      post = [] ∧ res = inr err.
Proof.
  intros Hmin Hleft.
  destruct (WaitForState_terminates E conf fuel conn Hmin Hleft)
    as (res & tr & conn' & Hrun).
  exists res, tr, conn'. split; [exact Hrun |].
  intros pre r post err Htr Herr.
  pose proof (WaitForState_last_observation E conf _ _ _ _ _ _ _ _ Hrun Htr) as Hlast.
  unfold classify in Hlast. by rewrite Herr in Hlast.
Qed.

(** C5: a run of the poller ends, and a refresh of the run that returns a
    state in neither the pending set nor the target set is its last event,
    the poller failing with the [UnexpectedStateError] that names the state,
    whatever time has elapsed. *)
Theorem WaitForState_unexpected_state (fuel : nat) (conf : StateChangeConf E)
    (conn : World E) :
  0 < MinTimeout conf →
  Timeout conf - Delay conf ≤ Z.of_nat fuel * MinTimeout conf →
  ∃ res tr conn',
    WaitForState E (S fuel) conf conn = Some (res, tr, conn') ∧
    ∀ pre r post,
      tr = pre ++ EvRefresh r :: post →
      Err r = None →
      State r ∉ Pending conf →
      State r ∉ Target conf →
      post = [] ∧ res = inr (UnexpectedStateError (State r)).
Proof.
  intros Hmin Hleft.
  destruct (WaitForState_terminates E conf fuel conn Hmin Hleft)
    as (res & tr & conn' & Hrun).
  exists res, tr, conn'. split; [exact Hrun |].
  intros pre r post Htr Herr Hpending Htarget.
  pose proof (WaitForState_last_observation E conf _ _ _ _ _ _ _ _ Hrun Htr) as Hlast.
  unfold classify in Hlast.
  by rewrite Herr, (bool_decide_eq_false_2 _ Htarget),
    (bool_decide_eq_false_2 _ Hpending) in Hlast.
Qed.

(** C6: when the resource is already gone at the first refresh of this file's
    refresh function and the target set is {"deleted"}, the poller succeeds
    and returns no object. *)
Theorem WaitForState_already_absent (fuel : nat) (conf : StateChangeConf E)
    (vifId : string) (conn conn1 : World E)
    (reply : DescribeVirtualInterfacesOutput + error) :
  Refresh conf = dxVirtualInterfaceStateRefresh E vifId →
  Target conf = [VirtualInterfaceStateDeleted] →
  DescribeVirtualInterfaces E (Sleep E (Delay conf) conn) vifId = (reply, conn1) →
  absent E reply →
  WaitForState E (S fuel) conf conn =
    Some (inl None,
          [EvSleep (Delay conf);
           EvRefresh {| Result := None; State := "deleted"; Err := None |}],
          conn1).
Proof.
  intros Href Htarget Hd Habs.
  apply (WaitForState_first_in_target E conf fuel conn conn1
           {| Result := None; State := "deleted"; Err := None |}).
  - rewrite Href. exact (refresh_absent E _ _ _ _ Hd Habs).
  - reflexivity.
  - rewrite Htarget. apply list_elem_of_here.
Qed.

End PollerClaims.



Lemma WaitForState_refresh_error_witness :
  let conf := deleteStateConf Scripted.env Scripted.rd in
  let conn := Scripted.script [Scripted.found "deleting"; inr Scripted.throttled;
                               inr Scripted.notFound] in
  0 < MinTimeout conf ∧
  Timeout conf - Delay conf ≤ Z.of_nat 120 * MinTimeout conf ∧
  ∃ res tr conn',
    WaitForState Scripted.env 121 conf conn = Some (res, tr, conn') ∧
    ∀ pre r post err,
      tr = pre ++ EvRefresh r :: post →
      Err r = Some err →
      post = [] ∧ res = inr err.
Proof.
  intros conf conn.
  assert (Hmin : 0 < MinTimeout conf) by reflexivity.
  assert (Hleft : Timeout conf - Delay conf ≤ Z.of_nat 120 * MinTimeout conf)
    by (vm_compute; discriminate).
  split; [exact Hmin |]. split; [exact Hleft |].
  exact (WaitForState_refresh_error Scripted.env 120 conf conn Hmin Hleft).
Defined.

(** The run of that input: one pending observation, one interval, then the
    throttling error, returned as it is; the third answer is never asked for. *)
Example run_with_throttled_refresh :
  ∃ tr,
    WaitForState Scripted.env 121 (deleteStateConf Scripted.env Scripted.rd)
      (Scripted.script [Scripted.found "deleting"; inr Scripted.throttled;
                        inr Scripted.notFound])
    = Some (inr Scripted.throttled, tr,
            Scripted.mkWorld [inr Scripted.notFound] None (15 * Second)) ∧
    sleeps tr = [10 * Second; 5 * Second].
Proof. eexists. split; vm_compute; reflexivity. Qed.

Lemma WaitForState_unexpected_state_witness :
  let conf := deleteStateConf Scripted.env Scripted.rd in
  let conn := Scripted.script [Scripted.found "pending"; Scripted.found "unknown"] in
  0 < MinTimeout conf ∧
  Timeout conf - Delay conf ≤ Z.of_nat 120 * MinTimeout conf ∧
  ∃ res tr conn',
    WaitForState Scripted.env 121 conf conn = Some (res, tr, conn') ∧
    ∀ pre r post,
      tr = pre ++ EvRefresh r :: post →
      Err r = None →
      State r ∉ Pending conf →
      State r ∉ Target conf →
      post = [] ∧ res = inr (UnexpectedStateError (State r)).
Proof.
  intros conf conn.
  assert (Hmin : 0 < MinTimeout conf) by reflexivity.
  assert (Hleft : Timeout conf - Delay conf ≤ Z.of_nat 120 * MinTimeout conf)
    by (vm_compute; discriminate).
  split; [exact Hmin |]. split; [exact Hleft |].
  exact (WaitForState_unexpected_state Scripted.env 120 conf conn Hmin Hleft).
Defined.

Example run_with_unknown_state :
  ∃ tr conn',
    WaitForState Scripted.env 121 (deleteStateConf Scripted.env Scripted.rd)
      (Scripted.script [Scripted.found "pending"; Scripted.found "unknown"])
    = Some (inr (UnexpectedStateError "unknown"), tr, conn') ∧
    sleeps tr = [10 * Second; 5 * Second].
Proof. eexists _, _. split; vm_compute; reflexivity. Qed.

Lemma WaitForState_already_absent_witness :
  let conf := deleteStateConf Scripted.env Scripted.rd in
  let conn := Scripted.script [inr Scripted.notFound] in
  absent Scripted.env (inr Scripted.notFound) ∧
  WaitForState Scripted.env 1 conf conn =
    Some (inl None,
          [EvSleep (10 * Second);
           EvRefresh {| Result := None; State := "deleted"; Err := None |}],
          Scripted.mkWorld [] None (10 * Second)).
Proof.
  split; [vm_compute; reflexivity |].
  apply (WaitForState_already_absent Scripted.env 0
           (deleteStateConf Scripted.env Scripted.rd) "dxvif-fgh0hsqa"
           (Scripted.script [inr Scripted.notFound])
           (Scripted.mkWorld [] None (10 * Second)) (inr Scripted.notFound)).
  - reflexivity.
  - reflexivity.
  - reflexivity.
  - vm_compute; reflexivity.
Defined.

(** ** Read, delete and the configurations *)

Lemma terminalStates_lookup_None (state : string) :
  terminalStates !! state = None ↔
  state ∉ [VirtualInterfaceStateDeleted; VirtualInterfaceStateDeleting;
           VirtualInterfaceStateRejected].
Proof.
  unfold terminalStates.
  rewrite !lookup_insert_None, lookup_empty, !not_elem_of_cons.
  split.
  - intros [[[_ Hrejected] Hdeleting] Hdeleted].
    repeat split; [congruence.. | apply not_elem_of_nil].
  - intros (Hdeleted & Hdeleting & Hrejected & _).
    repeat split; congruence.
Qed.

Section Operations.

Variable E : Env.

(** C7: when the delete call fails, the delete operation returns nil for the
    "does not exist" error and an error for every other one; and whenever the
    operation returns nil, either the delete call failed with "does not
    exist", or it succeeded and so did the wait for the "deleted" state. *)
Theorem dxVirtualInterfaceDelete_swallows_only_not_found (fuel : nat)
    (d : ResourceData) (conn conn1 : World E) (reply : option error) :
  DeleteVirtualInterface E conn (Id d) = (reply, conn1) →
  (∀ err, reply = Some err →
     dxVirtualInterfaceDelete E fuel d conn =
       Some (if isNoSuchDxVirtualInterfaceErr E err then None
             else Some (ErrorString
                          ("Error deleting Direct Connect virtual interface: "
                             +:+ Error E err)),
             conn1)) ∧
  (∀ conn', dxVirtualInterfaceDelete E fuel d conn = Some (None, conn') →
     (∃ err, reply = Some err ∧ isNoSuchDxVirtualInterfaceErr E err = true
             ∧ conn' = conn1) ∨
     (reply = None ∧
      ∃ object tr,
        WaitForState E fuel (deleteStateConf E d) conn1 = Some (inl object, tr, conn'))).
Proof.
  intros Hdel. unfold dxVirtualInterfaceDelete. rewrite Hdel. split.
  - intros err ->. by destruct (isNoSuchDxVirtualInterfaceErr E err).
  - intros conn'. destruct reply as [err|].
    + destruct (isNoSuchDxVirtualInterfaceErr E err) eqn:Hno; [|discriminate].
      intros [= <-]. left. by exists err.
    + destruct (WaitForState E fuel (deleteStateConf E d) conn1)
        as [[[[object|err] tr] conn2]|]; [|discriminate..].
      intros [= <-]. right. split; [done |]. by exists object, tr.
Qed.

(** C8, as amended: the pending and target sets of the delete configuration
    are disjoint; those of the configuration of
    [dxVirtualInterfaceWaitUntilAvailable] are the sets its caller passes, and
    are disjoint exactly when these are. *)
Theorem state_confs_disjoint (d : ResourceData) :
  Pending (deleteStateConf E d) ## Target (deleteStateConf E d) ∧
  ∀ pending target : list string,
    Pending (stateConf E d pending target) ## Target (stateConf E d pending target)
    ↔ pending ## target.
Proof.
  split; [|done].
  intros state Hpending Htarget. simpl in *.
  apply list_elem_of_singleton in Htarget as ->.
  repeat (apply elem_of_cons in Hpending as [Hpending|Hpending]; [discriminate |]).
  by apply elem_of_nil in Hpending.
Qed.


End Operations.

(** A caller of [dxVirtualInterfaceWaitUntilAvailable] that passes the same
    state as pending and as target gets a configuration whose sets meet. *)
Lemma stateConf_not_disjoint :
  ¬ (Pending (stateConf Scripted.env Scripted.rd ["available"] ["available"])
     ## Target (stateConf Scripted.env Scripted.rd ["available"] ["available"])).
Proof.
  intros Hdisj. apply (Hdisj "available"); apply list_elem_of_here.
Qed.

Lemma dxVirtualInterfaceDelete_swallows_only_not_found_witness :
  let conn := Scripted.mkWorld [] (Some Scripted.notFound) 0 in
  DeleteVirtualInterface Scripted.env conn (Id Scripted.rd)
    = (Some Scripted.notFound, conn) ∧
  dxVirtualInterfaceDelete Scripted.env 0 Scripted.rd conn = Some (None, conn).
Proof.
  intros conn. split; [reflexivity |].
  destruct (dxVirtualInterfaceDelete_swallows_only_not_found Scripted.env 0
              Scripted.rd conn conn (Some Scripted.notFound) eq_refl)
    as [Hfail _].
  exact (Hfail Scripted.notFound eq_refl).
Defined.

(** Another error of the delete call comes back, wrapped. *)
Example dxVirtualInterfaceDelete_throttled :
  let conn := Scripted.mkWorld [] (Some Scripted.throttled) 0 in
  dxVirtualInterfaceDelete Scripted.env 0 Scripted.rd conn =
    Some (Some (ErrorString
                  "Error deleting Direct Connect virtual interface: ThrottlingException: Rate exceeded"),
          conn).
Proof. vm_compute. reflexivity. Qed.


Example dxVirtualInterfaceRead_available :
  dxVirtualInterfaceRead Scripted.env Scripted.rd
      (Scripted.script [Scripted.found "available"])
    = Some (Some (Scripted.vif "available"), None, Scripted.rd, Scripted.script []).
Proof. vm_compute. reflexivity. Qed.

(** ** Route filter prefixes *)

(** The loop fills the slots from the left: with [filled] already written and
    one nil slot per string left, it ends with every slot written. *)
Lemma expand_loop_strings (l : list string) :
  ∀ filled : list (option RouteFilterPrefix),
    expand_loop (length filled) (VString <$> l) (filled ++ replicate (length l) None)
    = Some (filled ++ (prefix_of <$> l)).
Proof.
  induction l as [|s l IH]; intros filled; simpl.
  - reflexivity.
  - replace (length filled) with (length filled + 0)%nat at 2 by lia.
    rewrite insert_app_r. simpl.
    specialize (IH (filled ++ [prefix_of s])).
    rewrite length_app, <- !(assoc_L (++)) in IH. simpl in IH.
    replace (length filled + 1)%nat with (S (length filled)) in IH by lia.
    exact IH.
Qed.

Lemma flatten_loop_strings (l : list string) :
  ∀ out : list string, flatten_loop (prefix_of <$> l) out = Some (out ++ l).
Proof.
  induction l as [|s l IH]; intros out; simpl.
  - by rewrite app_nil_r.
  - rewrite IH. by rewrite <- (assoc_L (++)).
Qed.


Example expand_flatten_duplicates :
  ∃ prefixes,
    expandDxRouteFilterPrefixes
      [VString "10.0.0.0/8"; VString "172.16.0.0/12"; VString "10.0.0.0/8"]
    = Some prefixes ∧
    flattenDxRouteFilterPrefixes prefixes = Some {[ "10.0.0.0/8"; "172.16.0.0/12" ]}.
Proof.
  eexists. split; [reflexivity |].
  unfold flattenDxRouteFilterPrefixes. simpl. f_equal.
Qed.

(** A configuration value that is not a string makes the type assertion of
    [expandDxRouteFilterPrefixes] panic. *)
Example expand_not_a_string :
  expandDxRouteFilterPrefixes [VString "10.0.0.0/8"; VInt 8] = None.
Proof. reflexivity. Qed.

(** * Further properties of the refresh and of the read *)

Section RefreshShape.

Variable E : Env.

(** The refresh in terms of the answer of the describe call. *)
Lemma refresh_by_reply (vifId : string) (conn conn1 : World E)
    (reply : DescribeVirtualInterfacesOutput + error) :
  DescribeVirtualInterfaces E conn vifId = (reply, conn1) →
  dxVirtualInterfaceStateRefresh E vifId conn =
    (match reply with
     | inr err =>
         if isNoSuchDxVirtualInterfaceErr E err
         then mkRefreshResult None "deleted" None
         else mkRefreshResult None "" (Some err)
     | inl resp =>
         match VirtualInterfaces resp with
         | [] => mkRefreshResult None "deleted" None
         | vif :: _ =>
             mkRefreshResult (Some vif) (StringValue (VirtualInterfaceState vif)) None
         end
     end, conn1).
Proof.
  intros Hd. unfold dxVirtualInterfaceStateRefresh. rewrite Hd.
  destruct reply as [resp|err].
  - by destruct (VirtualInterfaces resp).
  - by destruct (isNoSuchDxVirtualInterfaceErr E err).
Qed.


(** X3: the refresh reports the state "deleted" without an object and without
    an error exactly when the resource is gone: the describe call fails with
    "does not exist" or answers with an empty list. *)
Theorem refresh_deleted_iff_absent (vifId : string) (conn conn1 : World E)
    (reply : DescribeVirtualInterfacesOutput + error) :
  DescribeVirtualInterfaces E conn vifId = (reply, conn1) →
  dxVirtualInterfaceStateRefresh E vifId conn =
    (mkRefreshResult None "deleted" None, conn1)
  ↔ absent E reply.
Proof.
  intros Hd. rewrite (refresh_by_reply _ _ _ _ Hd).
  destruct reply as [resp|err]; simpl.
  - destruct (VirtualInterfaces resp); split; done.
  - destruct (isNoSuchDxVirtualInterfaceErr E err); split; done.
Qed.

(** The read in terms of the answer of the describe call. *)
Lemma read_by_reply (d : ResourceData) (conn conn1 : World E)
    (reply : DescribeVirtualInterfacesOutput + error) :
  DescribeVirtualInterfaces E conn (Id d) = (reply, conn1) →
  dxVirtualInterfaceRead E d conn =
    Some (match reply with
          | inr err =>
              if isNoSuchDxVirtualInterfaceErr E err
              then (None, None, SetId "" d, conn1)
              else (None,
                    Some (ErrorString
                            ("Error reading Direct Connect virtual interface: "
                               +:+ Error E err)),
                    d, conn1)
          | inl resp =>
              match VirtualInterfaces resp with
              | [] => (None, None, SetId "" d, conn1)
              | vif :: _ =>
                  if bool_decide (StringValue (VirtualInterfaceState vif)
                                    ∈ ["deleted"; "deleting"; "rejected"])
                  then (None, None, SetId "" d, conn1)
                  else (Some vif, None, d, conn1)
              end
          end).
Proof.
  intros Hd. unfold dxVirtualInterfaceRead.
  rewrite (refresh_by_reply _ _ _ _ Hd).
  destruct reply as [resp|err].
  - destruct (VirtualInterfaces resp) as [|vif rest]; [reflexivity |]. simpl.
    destruct (terminalStates !! StringValue (VirtualInterfaceState vif)) eqn:Hl.
    + rewrite bool_decide_eq_true_2; [done |].
      destruct (decide (StringValue (VirtualInterfaceState vif)
                          ∈ ["deleted"; "deleting"; "rejected"])) as [Hin|Hnot];
        [done |].
      apply terminalStates_lookup_None in Hnot. congruence.
    + apply terminalStates_lookup_None in Hl.
      by rewrite bool_decide_eq_false_2.
  - by destruct (isNoSuchDxVirtualInterfaceErr E err).
Qed.


(** X5: the read fails exactly when the describe call fails with an error
    other than "does not exist"; the error then carries the text of that
    error after a fixed prefix, and the identifier is kept. *)
Theorem dxVirtualInterfaceRead_error_iff (d : ResourceData) (conn conn1 : World E)
    (reply : DescribeVirtualInterfacesOutput + error) (e : error) :
  DescribeVirtualInterfaces E conn (Id d) = (reply, conn1) →
  ((∃ vif d', dxVirtualInterfaceRead E d conn = Some (vif, Some e, d', conn1)) ↔
   ∃ err,
     reply = inr err ∧ isNoSuchDxVirtualInterfaceErr E err = false ∧
     e = ErrorString ("Error reading Direct Connect virtual interface: "
                        +:+ Error E err)) ∧
  (∀ err,
     reply = inr err → isNoSuchDxVirtualInterfaceErr E err = false →
     dxVirtualInterfaceRead E d conn =
       Some (None,
             Some (ErrorString ("Error reading Direct Connect virtual interface: "
                                  +:+ Error E err)),
             d, conn1)).
Proof.
  intros Hd. rewrite (read_by_reply _ _ _ _ Hd). split; [split |].
  - intros (vif & d' & Hread). destruct reply as [resp|err].
    + destruct (VirtualInterfaces resp) as [|vif0 rest]; [discriminate |].
      by case_bool_decide.
    + destruct (isNoSuchDxVirtualInterfaceErr E err) eqn:Hno; [discriminate |].
      injection Hread as <- <- <-. by exists err.
  - intros (err & -> & Hno & ->). rewrite Hno. by exists None, d.
  - intros err -> Hno. by rewrite Hno.
Qed.


(** X7: the read returns a virtual interface exactly when the answer of the
    describe call starts with it and its state is none of "deleted",
    "deleting" and "rejected"; it then keeps the resource data as they are.
    An interface whose state pointer is nil counts as one in the state "". *)
Theorem dxVirtualInterfaceRead_found_iff (d : ResourceData) (conn conn1 : World E)
    (reply : DescribeVirtualInterfacesOutput + error) (vif : VirtualInterface) :
  DescribeVirtualInterfaces E conn (Id d) = (reply, conn1) →
  ((∃ err d', dxVirtualInterfaceRead E d conn = Some (Some vif, err, d', conn1)) ↔
   (∃ resp rest, reply = inl resp ∧ VirtualInterfaces resp = vif :: rest) ∧
   (StringValue (VirtualInterfaceState vif) ∉ ["deleted"; "deleting"; "rejected"])) ∧
  (∀ resp rest,
     reply = inl resp → VirtualInterfaces resp = vif :: rest →
     StringValue (VirtualInterfaceState vif) ∉ ["deleted"; "deleting"; "rejected"] →
     dxVirtualInterfaceRead E d conn = Some (Some vif, None, d, conn1)).
Proof.
  intros Hd. pose proof (read_by_reply _ _ _ _ Hd) as Hread0.
  assert (Hfound : ∀ resp rest,
    reply = inl resp → VirtualInterfaces resp = vif :: rest →
    StringValue (VirtualInterfaceState vif) ∉ ["deleted"; "deleting"; "rejected"] →
    dxVirtualInterfaceRead E d conn = Some (Some vif, None, d, conn1)).
  { intros resp rest -> Hl Hstate. rewrite Hread0, Hl.
    by rewrite bool_decide_eq_false_2. }
  split; [split |]; [| |exact Hfound].
  - rewrite Hread0. intros (err & d' & Hread). destruct reply as [resp|err0].
    + destruct (VirtualInterfaces resp) as [|vif0 rest] eqn:Hl; [discriminate |].
      case_bool_decide as Hstate; [discriminate |].
      injection Hread as -> <- <-. split; [exists resp, rest; done | done].
    + by destruct (isNoSuchDxVirtualInterfaceErr E err0).
  - intros [(resp & rest & Hreply & Hl) Hstate].
    exists None, d. exact (Hfound resp rest Hreply Hl Hstate).
Qed.

End RefreshShape.

(** * Further properties of the route filter prefixes *)

(** The expansion panics exactly when it meets a value that is not a string,
    at whatever index it starts and whatever the slots hold. *)
Lemma expand_loop_None_iff (cfg : list value) :
  ∀ (i : nat) (prefixes : list (option RouteFilterPrefix)),
    expand_loop i cfg prefixes = None ↔ ∃ v, v ∈ cfg ∧ ∀ s, v ≠ VString s.
Proof.
  induction cfg as [|p cfg IH]; intros i prefixes; simpl.
  - split; [discriminate | intros (v & Hv & _); by apply elem_of_nil in Hv].
  - destruct p as [s|n|b|].
    + rewrite IH. split.
      * intros (v & Hv & Hns). exists v. split; [by apply list_elem_of_further | done].
      * intros (v & Hv & Hns). apply elem_of_cons in Hv as [->|Hv];
          [by destruct (Hns s) | by exists v].
    + split; [intros _ | done]. exists (VInt n). split; [apply list_elem_of_here | done].
    + split; [intros _ | done]. exists (VBool b). split; [apply list_elem_of_here | done].
    + split; [intros _ | done]. exists VNil. split; [apply list_elem_of_here | done].
Qed.

(** A list of values without anything but strings is a list of strings. *)
Lemma all_strings (cfg : list value) :
  (∀ v, v ∈ cfg → ∃ s, v = VString s) → ∃ l : list string, cfg = VString <$> l.
Proof.
  induction cfg as [|p cfg IH]; intros Hall.
  - by exists [].
  - destruct (Hall p (list_elem_of_here _ _)) as [s ->].
    destruct IH as [l ->].
    { intros v Hv. apply Hall. by apply list_elem_of_further. }
    by exists (s :: l).
Qed.

Lemma expand_Some_strings (cfg : list value) (prefixes : list (option RouteFilterPrefix)) :
  expandDxRouteFilterPrefixes cfg = Some prefixes →
  ∃ l : list string, cfg = VString <$> l ∧ prefixes = prefix_of <$> l.
Proof.
  intros Hexp.
  destruct (all_strings cfg) as [l ->].
  - intros v Hv. destruct v as [s|n|b|]; [by exists s | exfalso..].
    all: assert (Hnone : expandDxRouteFilterPrefixes cfg = None)
      by (apply expand_loop_None_iff; eexists; split; [exact Hv | done]);
      congruence.
  - exists l. split; [done |].
    unfold expandDxRouteFilterPrefixes in Hexp. rewrite length_fmap in Hexp.
    pose proof (expand_loop_strings l []) as Hl. simpl in Hl. congruence.
Qed.

(** The flattening panics exactly when it meets a nil pointer. *)
Lemma flatten_loop_None_iff (prefixes : list (option RouteFilterPrefix)) :
  ∀ out : list string, flatten_loop prefixes out = None ↔ None ∈ prefixes.
Proof.
  induction prefixes as [|p prefixes IH]; intros out; simpl.
  - split; [discriminate | intros Hin; by apply elem_of_nil in Hin].
  - destruct p as [q|].
    + rewrite IH, elem_of_cons. split; [by right | by intros [[=]|]].
    + split; [intros _; apply list_elem_of_here | done].
Qed.

(** Without a nil pointer it collects the strings of the prefixes in order,
    a nil [Cidr] counting as the empty string. *)
Lemma flatten_loop_Some (prefixes : list (option RouteFilterPrefix)) :
  ∀ out : list string,
    None ∉ prefixes →
    flatten_loop prefixes out =
      Some (out ++ omap (fmap (λ q, StringValue (Cidr q))) prefixes).
Proof.
  induction prefixes as [|p prefixes IH]; intros out Hnil; simpl.
  - by rewrite app_nil_r.
  - apply not_elem_of_cons in Hnil as [Hp Hnil]. destruct p as [q|]; [|done].
    simpl. rewrite (IH _ Hnil). by rewrite <- (assoc_L (++)).
Qed.

Lemma flatten_Some (prefixes : list (option RouteFilterPrefix)) :
  None ∉ prefixes →
  flattenDxRouteFilterPrefixes prefixes =
    Some (list_to_set (omap (fmap (λ q, StringValue (Cidr q))) prefixes)).
Proof.
  intros Hnil. unfold flattenDxRouteFilterPrefixes.
  by rewrite (flatten_loop_Some _ _ Hnil).
Qed.

Lemma flatten_None_iff (prefixes : list (option RouteFilterPrefix)) :
  flattenDxRouteFilterPrefixes prefixes = None ↔ None ∈ prefixes.
Proof.
  unfold flattenDxRouteFilterPrefixes. rewrite <- (flatten_loop_None_iff prefixes []).
  by destruct (flatten_loop prefixes []).
Qed.


Lemma size_list_to_set_le (l : list string) :
  (size (list_to_set l : gset string) ≤ length l)%nat.
Proof.
  induction l as [|s l IH].
  - by rewrite list_to_set_nil, size_empty.
  - rewrite list_to_set_cons, size_union_alt, size_singleton. simpl.
    assert (Hle : (size (list_to_set l ∖ {[s]} : gset string)
                   ≤ size (list_to_set l : gset string))%nat)
      by (apply subseteq_size, subseteq_difference_l; reflexivity).
    lia.
Qed.

Lemma length_cidrs_le (prefixes : list (option RouteFilterPrefix)) :
  (length (omap (fmap (λ q, StringValue (Cidr q))) prefixes) ≤ length prefixes)%nat.
Proof.
  induction prefixes as [|[q|] prefixes IH]; cbn in *; lia.
Qed.

(** X9: [expandDxRouteFilterPrefixes] panics exactly when some value of the
    configuration is not a string; the empty configuration gives the empty
    list. *)
Theorem expand_panics_iff (cfg : list value) :
  (expandDxRouteFilterPrefixes cfg = None ↔ ∃ v, v ∈ cfg ∧ ∀ s, v ≠ VString s) ∧
  expandDxRouteFilterPrefixes [] = Some [].
Proof. split; [apply expand_loop_None_iff | reflexivity]. Qed.

(** X10: what [expandDxRouteFilterPrefixes] returns has the length of the
    configuration and holds no nil pointer and no nil [Cidr], so that
    [flattenDxRouteFilterPrefixes] never panics on it. *)
Theorem expand_result_well_formed (cfg : list value)
    (prefixes : list (option RouteFilterPrefix)) :
  expandDxRouteFilterPrefixes cfg = Some prefixes →
  length prefixes = length cfg ∧
  (∀ p, p ∈ prefixes → ∃ s, p = Some {| Cidr := Some s |} ∧ VString s ∈ cfg) ∧
  is_Some (flattenDxRouteFilterPrefixes prefixes).
Proof.
  intros Hexp. destruct (expand_Some_strings _ _ Hexp) as (l & -> & ->).
  split; [by rewrite !length_fmap |]. split.
  - intros p Hp. apply list_elem_of_fmap in Hp as (s & -> & Hs).
    exists s. split; [done |]. apply list_elem_of_fmap. by exists s.
  - unfold flattenDxRouteFilterPrefixes. rewrite flatten_loop_strings. by eexists.
Qed.




(** X14: the set [flattenDxRouteFilterPrefixes] returns has at most as many
    elements as the list has prefixes. *)
Theorem flatten_size (prefixes : list (option RouteFilterPrefix)) (set : gset string) :
  flattenDxRouteFilterPrefixes prefixes = Some set →
  (size set ≤ length prefixes)%nat.
Proof.
  intros Hset. destruct (decide (None ∈ prefixes)) as [Hnil|Hnil].
  - apply flatten_None_iff in Hnil. congruence.
  - rewrite (flatten_Some _ Hnil) in Hset. injection Hset as <-.
    etrans; [apply size_list_to_set_le | apply length_cidrs_le].
Qed.


(** * Further properties of the attributes and of the update *)

Section AttributesProperties.

Variable E : Env.
Variable ARN_String : ARN → string.
Variables AddressFamilyIpv4 AddressFamilyIpv6 : string.
Variable setTagsDX :
  World E → ResourceData → Attributes → string → option error * World E.

(** What [dxVirtualInterfaceAttributes] writes for a virtual interface. *)
Lemma attributes_written (d : ResourceData) (meta : AWSClient) (vif : VirtualInterface) :
  ∃ written : Attributes,
    dom written =
      list_to_set ["arn"; "connection_id"; "name"; "vlan"; "bgp_asn"; "bgp_auth_key";
                   "address_family"; "customer_address"; "amazon_address"] ∧
    written !! "route_filter_prefixes" = None ∧
    ∀ attrs : Attributes,
      dxVirtualInterfaceAttributes ARN_String d meta (Some vif) attrs
      = Some (None, written ∪ attrs).
Proof.
  eexists. split; [|split]; last first.
  - intros attrs. unfold dxVirtualInterfaceAttributes, dxVirtualInterfaceArnAttribute,
      d_Set. rewrite <- (left_id_L ∅ (∪) attrs) at 1.
    rewrite !insert_union_l. reflexivity.
  - by rewrite !lookup_insert_ne.
  - rewrite !dom_insert_L, !dom_empty_L. set_solver.
Qed.

(** The keys [dxVirtualInterfaceSchema] declares. *)
Lemma dxVirtualInterfaceSchema_keys :
  dom (dxVirtualInterfaceSchema AddressFamilyIpv4 AddressFamilyIpv6) =
    list_to_set ["arn"; "connection_id"; "name"; "vlan"; "bgp_asn"; "bgp_auth_key";
                 "address_family"; "customer_address"; "amazon_address"].
Proof.
  unfold dxVirtualInterfaceSchema. rewrite !dom_insert_L, !dom_empty_L. set_solver.
Qed.

(** Writing over what was written changes nothing. *)
Lemma union_union_same (written attrs : Attributes) :
  written ∪ (written ∪ attrs) = written ∪ attrs.
Proof. by rewrite (assoc_L (∪)), (idemp_L (∪)). Qed.

(** X16: for a virtual interface that is there, [dxVirtualInterfaceAttributes]
    returns no error and writes the attributes declared in
    [dxVirtualInterfaceSchema], all of them and no other; what it writes does
    not depend on the attributes before the call, and every other attribute
    is kept. *)
Theorem dxVirtualInterfaceAttributes_frame (d : ResourceData) (meta : AWSClient)
    (vif : VirtualInterface) :
  ∃ written : Attributes,
    dom written = dom (dxVirtualInterfaceSchema AddressFamilyIpv4 AddressFamilyIpv6) ∧
    ∀ attrs : Attributes,
      dxVirtualInterfaceAttributes ARN_String d meta (Some vif) attrs
      = Some (None, written ∪ attrs).
Proof.
  destruct (attributes_written d meta vif) as (written & Hdom & _ & Hframe).
  exists written. by rewrite dxVirtualInterfaceSchema_keys.
Qed.

(** X17: [dxVirtualInterfaceAttributes] is idempotent: on the attributes it has
    produced it produces them again. *)
Theorem dxVirtualInterfaceAttributes_idempotent (d : ResourceData) (meta : AWSClient)
    (vif : VirtualInterface) (attrs : Attributes) :
  ∃ attrs' : Attributes,
    dxVirtualInterfaceAttributes ARN_String d meta (Some vif) attrs = Some (None, attrs') ∧
    dxVirtualInterfaceAttributes ARN_String d meta (Some vif) attrs' = Some (None, attrs').
Proof.
  destruct (attributes_written d meta vif) as (written & _ & _ & Hframe).
  exists (written ∪ attrs). split; [apply Hframe |].
  by rewrite Hframe, union_union_same.
Qed.

(** X18: the attribute functions never return an error.  The private one
    panics exactly on a nil virtual interface; the public one panics exactly
    on a nil virtual interface or on one whose route filter prefixes hold a
    nil pointer. *)
Theorem attributes_panic_iff (d : ResourceData) (meta : AWSClient)
    (vif : option VirtualInterface) (attrs : Attributes) :
  (dxPrivateVirtualInterfaceAttributes ARN_String d meta vif attrs = None
   ↔ vif = None) ∧
  (dxPublicVirtualInterfaceAttributes ARN_String d meta vif attrs = None
   ↔ vif = None ∨ ∃ v, vif = Some v ∧ None ∈ RouteFilterPrefixes v) ∧
  (∀ err attrs',
     dxPrivateVirtualInterfaceAttributes ARN_String d meta vif attrs = Some (err, attrs')
     ∨ dxPublicVirtualInterfaceAttributes ARN_String d meta vif attrs = Some (err, attrs')
     → err = None).
Proof.
  destruct vif as [v|].
  - destruct (attributes_written d meta v) as (written & _ & _ & Hframe).
    unfold dxPrivateVirtualInterfaceAttributes, dxPublicVirtualInterfaceAttributes.
    rewrite Hframe. split; [|split].
    + split; discriminate.
    + destruct (flattenDxRouteFilterPrefixes (RouteFilterPrefixes v)) as [set|] eqn:Hset.
      * split; [discriminate |]. intros [[=] | (v' & [= <-] & Hnil)].
        apply flatten_None_iff in Hnil. congruence.
      * split; [|done]. intros _. right. exists v.
        split; [done | by apply flatten_None_iff].
    + intros err attrs' [[= <- _] | Hpub]; [done |].
      destruct (flattenDxRouteFilterPrefixes (RouteFilterPrefixes v));
        by simplify_eq.
  - split; [|split].
    + done.
    + split; [by left | done].
    + intros err attrs' [Hpriv | Hpub]; discriminate.
Qed.


(** X20: the ARN [dxVirtualInterfaceUpdate] hands to [setTagsDX] is the one
    [dxVirtualInterfaceArnAttribute] stores under "arn", for the resource
    "dxvif/" followed by the identifier; the update returns what [setTagsDX]
    returns, and the attribute function never fails. *)
Theorem update_tags_the_arn_attribute (d : ResourceData) (meta : AWSClient)
    (attrs attrs0 : Attributes) (conn : World E) :
  ∃ arn attrs',
    arn = ARN_String {| Partition := partition meta; Service := "directconnect";
                        Region := region meta; AccountID := accountid meta;
                        Resource := "dxvif/" +:+ Id d |} ∧
    dxVirtualInterfaceArnAttribute ARN_String d meta attrs0 = (None, attrs') ∧
    attrs' !! "arn" = Some (SetString arn) ∧
    dxVirtualInterfaceUpdate E ARN_String setTagsDX d attrs meta conn
      = setTagsDX conn d attrs arn.
Proof.
  eexists _, _. split; [reflexivity |]. split; [reflexivity |]. split.
  - unfold d_Set. apply lookup_insert_eq.
  - unfold dxVirtualInterfaceUpdate. by destruct (setTagsDX _ _ _ _) as [[err|] c].
Qed.


End AttributesProperties.

(** * The further properties on the scripted service *)

Lemma refresh_error_iff_witness :
  let conn := Scripted.script [inr Scripted.throttled] in
  let r := mkRefreshResult None "" (Some Scripted.throttled) in
  dxVirtualInterfaceStateRefresh Scripted.env "dxvif-fgh0hsqa" conn
    = (r, Scripted.script []) ∧
  (Err r = Some Scripted.throttled ↔
   DescribeVirtualInterfaces Scripted.env conn "dxvif-fgh0hsqa"
     = (inr Scripted.throttled, Scripted.script [])
   ∧ isNoSuchDxVirtualInterfaceErr Scripted.env Scripted.throttled = false).
Proof.
  intros conn r. split; [reflexivity |].
  apply (refresh_error_iff Scripted.env "dxvif-fgh0hsqa" conn (Scripted.script []) r).
  reflexivity.
Defined.


Lemma refresh_deleted_iff_absent_witness :
  let conn := Scripted.script [] in
  DescribeVirtualInterfaces Scripted.env conn "dxvif-fgh0hsqa"
    = (inl (mkDescribeOutput []), conn) ∧
  dxVirtualInterfaceStateRefresh Scripted.env "dxvif-fgh0hsqa" conn
    = (mkRefreshResult None "deleted" None, conn).
Proof.
  intros conn. split; [reflexivity |].
  exact (proj2 (refresh_deleted_iff_absent Scripted.env "dxvif-fgh0hsqa" conn conn
                  (inl (mkDescribeOutput [])) eq_refl) eq_refl).
Defined.

Lemma dxVirtualInterfaceRead_error_iff_witness :
  let conn := Scripted.script [inr Scripted.throttled] in
  DescribeVirtualInterfaces Scripted.env conn (Id Scripted.rd)
    = (inr Scripted.throttled, Scripted.script []) ∧
  dxVirtualInterfaceRead Scripted.env Scripted.rd conn
    = Some (None,
            Some (ErrorString
                    "Error reading Direct Connect virtual interface: ThrottlingException: Rate exceeded"),
            Scripted.rd, Scripted.script []).
Proof.
  intros conn. split; [reflexivity |].
  exact (proj2 (dxVirtualInterfaceRead_error_iff Scripted.env Scripted.rd conn
                  (Scripted.script []) (inr Scripted.throttled)
                  (ErrorString "") eq_refl)
           Scripted.throttled eq_refl eq_refl).
Defined.


(** A virtual interface whose state pointer is nil is read as one in the
    state "" and returned. *)
Lemma dxVirtualInterfaceRead_found_iff_witness :
  let vif := mkVirtualInterface None (Some "dxcon-fg5678gh") None None None None
               None None None [] in
  let conn := Scripted.script [inl (mkDescribeOutput [vif])] in
  DescribeVirtualInterfaces Scripted.env conn (Id Scripted.rd)
    = (inl (mkDescribeOutput [vif]), Scripted.script []) ∧
  dxVirtualInterfaceRead Scripted.env Scripted.rd conn
    = Some (Some vif, None, Scripted.rd, Scripted.script []).
Proof.
  intros vif conn. split; [reflexivity |].
  apply (proj2 (dxVirtualInterfaceRead_found_iff Scripted.env Scripted.rd conn
                  (Scripted.script []) (inl (mkDescribeOutput [vif])) vif eq_refl)
           (mkDescribeOutput [vif]) [] eq_refl eq_refl).
  intros Hin.
  repeat (apply elem_of_cons in Hin as [Hin|Hin]; [discriminate |]).
  by apply elem_of_nil in Hin.
Defined.

Lemma expand_result_well_formed_witness :
  let cfg := [VString "10.0.0.0/8"; VString "172.16.0.0/12"] in
  let prefixes := [Some {| Cidr := Some "10.0.0.0/8" |};
                   Some {| Cidr := Some "172.16.0.0/12" |}] in
  expandDxRouteFilterPrefixes cfg = Some prefixes ∧
  length prefixes = length cfg ∧
  (∀ p, p ∈ prefixes → ∃ s, p = Some {| Cidr := Some s |} ∧ VString s ∈ cfg) ∧
  is_Some (flattenDxRouteFilterPrefixes prefixes).
Proof.
  intros cfg prefixes. split; [reflexivity |].
  exact (expand_result_well_formed cfg prefixes eq_refl).
Defined.


Lemma flatten_size_witness :
  let prefixes := RouteFilterPrefixes Sample.publicVif in
  let set : gset string :=
    list_to_set ["210.52.109.0/24"; "175.45.176.0/22"; "210.52.109.0/24"] in
  flattenDxRouteFilterPrefixes prefixes = Some set ∧ (size set ≤ 3)%nat.
Proof.
  intros prefixes set. split; [reflexivity |].
  exact (flatten_size prefixes set eq_refl).
Defined.


(** The ARN of the sample client. *)
Example arn_attribute_sample :
  (dxVirtualInterfaceArnAttribute Sample.arnString Scripted.rd Sample.client ∅).2
    !! "arn"
  = Some (SetString "arn:aws:directconnect:us-east-1:123456789012:dxvif/dxvif-fgh0hsqa").
Proof. reflexivity. Qed.
